(** * Workflow automation: ingestion, status logging and loan capabilities

    A shallow embedding of the four Python programs of the repository:

    - [processor.py]: the ingestion process ([ServiceBusHelper]);
    - [status_logging_agent.py]: the capabilities [log_step] and
      [update_workflow_status], and the agent's command line;
    - [commercial_loan_agent.py]: [validate_application],
      [get_credit_score], and the agent's command line;
    - [orchestrator_agent.py]: [main], up to the one call of the chat
      agent; the step loop itself is carried out by the language
      model and has no code to embed.

    External systems are explicit state: the Cosmos container, the two
    SQL tables, the set of completed queue messages and the log of the
    agents.  Whatever the environment decides (a fresh uuid, a
    timestamp, a driver that raises, a random draw, the reply of the
    LLM service) is an argument of the embedded function. *)

From Stdlib Require Import String List ZArith Lia Bool Ascii DecimalString.
Import ListNotations.
Open Scope string_scope.
Open Scope Z_scope.

Local Set Warnings "-register-all".

(** ** Python values and exceptions *)

(** Values that [json.loads] returns and that the Cosmos container
    stores: Python dicts, lists and scalars. *)
Inductive json : Type :=
| JNull
| JBool (b : bool)
| JNum (n : Z)
| JStr (s : string)
| JArr (items : list json)
| JObj (fields : list (string * json)).

(** The subclasses of [Exception] that the programs name in an
    [except] clause, and one constructor for all the others. *)
Inductive exn : Type :=
| JSONDecodeError (msg : string)
| CosmosHttpResponseError (msg : string)
| PyodbcError (msg : string)
| OtherException (msg : string).

(** [str(e)], as the f-strings of the log messages use it. *)
Definition str_exn (e : exn) : string :=
  match e with
  | JSONDecodeError m | CosmosHttpResponseError m
  | PyodbcError m | OtherException m => m
  end.

(** [str(n)] for a Python int. *)
Definition str_int (n : Z) : string := NilZero.string_of_int (Z.to_int n).

Inductive outcome (A : Type) : Type :=
| Ret (a : A)
| Raise (e : exn).
Arguments Ret {A} a.
Arguments Raise {A} e.

(** ** A state and exception monad

    A Python statement runs in a state, returns or raises, and leaves
    a state behind: what was written before a raise stays written. *)
Definition M (S A : Type) : Type := S -> outcome A * S.

Definition ret {S A} (a : A) : M S A := fun s => (Ret a, s).

Definition raise {S A} (e : exn) : M S A := fun s => (Raise e, s).

Definition bind {S A B} (c : M S A) (k : A -> M S B) : M S B :=
  fun s =>
    match c s with
    | (Ret a, s') => k a s'
    | (Raise e, s') => (Raise e, s')
    end.

Definition modify {S} (f : S -> S) : M S unit := fun s => (Ret tt, f s).

(** [try: c  except ...: h e].  The handler answers [None] for an
    exception that no [except] clause matches; it then propagates. *)
Definition try_except {S A} (c : M S A) (h : exn -> option (M S A)) : M S A :=
  fun s =>
    match c s with
    | (Ret a, s') => (Ret a, s')
    | (Raise e, s') =>
        match h e with
        | Some handler => handler s'
        | None => (Raise e, s')
        end
    end.

(** [try: c  finally: fin]. *)
Definition try_finally {S A} (c : M S A) (fin : M S unit) : M S A :=
  fun s =>
    match c s with
    | (r, s') =>
        match fin s' with
        | (Ret _, s'') => (r, s'')
        | (Raise e, s'') => (Raise e, s'')
        end
    end.

Declare Scope py_scope.
Delimit Scope py_scope with py.
Notation "x <- c ;; k" := (bind c (fun x => k))
  (at level 61, c at next level, right associativity) : py_scope.
Notation "c ;; k" := (bind c (fun _ => k))
  (at level 61, right associativity) : py_scope.
Open Scope py_scope.

(** ** The external systems *)

(** A row of the SQL table [workflow(id, status, current_step, created_date)]. *)
Record workflow_row : Type := mk_workflow_row {
  id : string;
  status : string;
  current_step : Z;
  created_date : string
}.

(** A row of [workflow_step_status(step, workflow_id, status_comment,
    update_date_time, status)]. *)
Record step_status_row : Type := mk_step_status_row {
  step : Z;
  workflow_id : string;
  status_comment : string;
  update_date_time : string;
  step_status : string
}.

Inductive level : Type := INFO | WARNING | ERROR.

Record world : Type := mk_world {
  container : list json;                    (* Cosmos container Messages *)
  workflow : list workflow_row;             (* SQL table workflow *)
  workflow_step_status : list step_status_row;
  completed : list string;                  (* messages removed from the queue *)
  log : list (level * string)               (* the agents' logger *)
}.

Definition empty_world : world := mk_world [] [] [] [] [].

Definition logger (l : level) (msg : string) : M world unit :=
  modify (fun w => mk_world (container w) (workflow w) (workflow_step_status w)
                            (completed w) (log w ++ [(l, msg)])%list).

Definition logger_info := logger INFO.
Definition logger_warning := logger WARNING.
Definition logger_error := logger ERROR.

(** ** pyodbc

    The three statements the programs send.  [UPDATE ... WHERE id = ?]
    rewrites every row with that id and is no error when there is none. *)
Inductive statement : Type :=
| InsertWorkflow (r : workflow_row)
| InsertStepStatus (r : step_status_row)
| UpdateWorkflow (new_step : Z) (new_status : string) (wid : string).

Definition set_step_status (new_step : Z) (new_status : string)
    (r : workflow_row) : workflow_row :=
  mk_workflow_row (id r) new_status new_step (created_date r).

Definition update_row (new_step : Z) (new_status wid : string)
    (r : workflow_row) : workflow_row :=
  if String.eqb (id r) wid then set_step_status new_step new_status r else r.

Definition run_statement (st : statement) (w : world) : world :=
  match st with
  | InsertWorkflow r =>
      mk_world (container w) (workflow w ++ [r])%list (workflow_step_status w)
               (completed w) (log w)
  | InsertStepStatus r =>
      mk_world (container w) (workflow w) (workflow_step_status w ++ [r])%list
               (completed w) (log w)
  | UpdateWorkflow new_step new_status wid =>
      mk_world (container w) (map (update_row new_step new_status wid) (workflow w))
               (workflow_step_status w) (completed w) (log w)
  end.

(** Where the driver raises during one call, if it does. *)
Inductive fault : Type :=
| NoFault
| ConnectRaises (e : exn)
| ExecuteRaises (e : exn)
| CommitRaises (e : exn).

(** A connection holds the statements executed and not yet committed. *)
Definition connection : Type := list statement.

Definition pyodbc_connect (f : fault) : M world connection :=
  match f with
  | ConnectRaises e => raise e
  | _ => ret []
  end.

Definition cursor_execute (f : fault) (conn : connection) (st : statement)
    : M world connection :=
  match f with
  | ExecuteRaises e => raise e
  | _ => ret (conn ++ [st])%list
  end.

Definition conn_commit (f : fault) (conn : connection) : M world unit :=
  match f with
  | CommitRaises e => raise e
  | _ => modify (fun w => fold_left (fun w' st => run_statement st w') conn w)
  end.

(** [conn.close()]: what was not committed is rolled back, so the
    tables stay as they are. *)
Definition conn_close : M world unit := ret tt.

(** ** status_logging_agent.py: [StatusLoggingPlugin] *)

(** ['conn' in locals()]: the name is bound once [pyodbc.connect]
    has returned. *)
Definition conn_in_locals (f : fault) : bool :=
  match f with
  | ConnectRaises _ => false
  | _ => true
  end.

(** [log_step]; [now] is [datetime.now()]. *)
Definition log_step (f : fault) (now : string)
    (step_status_comment : string) (step : Z) (workflow_id status : string)
    : M world bool :=
  logger_info ("log_step called with step_status_comment: " ++ step_status_comment
               ++ ", step: " ++ str_int step
               ++ ", workflow_id: " ++ workflow_id ++ ", status: ") ;;
  try_finally
    (try_except
       (conn <- pyodbc_connect f ;;
        let update_date_time := now in
        conn <- cursor_execute f conn
                  (InsertStepStatus
                     (mk_step_status_row step workflow_id step_status_comment
                                         update_date_time status)) ;;
        conn_commit f conn ;;
        logger_info "Workflow status logged successfully to the database.")
       (fun e =>
          Some (logger_error
                  ("Failed to log workflow status to the database: " ++ str_exn e))))
    (if conn_in_locals f then conn_close else ret tt) ;;
  ret true.

(** [update_workflow_status]. *)
Definition update_workflow_status (f : fault)
    (current_step : Z) (workflow_id status : string) : M world bool :=
  logger_info ("update_workflow called with current_step: " ++ str_int current_step
               ++ ", workflow_id: " ++ workflow_id ++ ", status: " ++ status) ;;
  try_finally
    (try_except
       (conn <- pyodbc_connect f ;;
        conn <- cursor_execute f conn
                  (UpdateWorkflow current_step status workflow_id) ;;
        conn_commit f conn ;;
        logger_info "Workflow status updated successfully in the database.")
       (fun e =>
          Some (logger_error
                  ("Failed to update workflow status in the database: " ++ str_exn e))))
    (if conn_in_locals f then conn_close else ret tt) ;;
  ret true.

(** ** processor.py: [ServiceBusHelper]

    The calls to [print] and to the processor's own logger only
    report what happened and are left out. *)

(** [insert_workflow_record]; [now] is the formatted [time.gmtime()].
    Both [except] clauses return [False]. *)
Definition insert_workflow_record (f : fault) (now : string)
    (workflow_id : string) : M world bool :=
  try_except
    (conn <- pyodbc_connect f ;;
     conn <- cursor_execute f conn
               (InsertWorkflow (mk_workflow_row workflow_id "Initial" 1 now)) ;;
     conn_commit f conn ;;
     ret true)
    (fun e =>
       match e with
       | PyodbcError _ => Some (ret false)
       | _ => Some (ret false)
       end).

(** [self.container.create_item(body=document)]. *)
Definition create_item (cf : option exn) (body : json) : M world unit :=
  match cf with
  | Some e => raise e
  | None =>
      modify (fun w => mk_world (container w ++ [body])%list (workflow w)
                                (workflow_step_status w) (completed w) (log w))
  end.

(** [store_in_cosmosdb]; [uuid] is [str(uuid.uuid4())].  Both
    [except] clauses return [None]. *)
Definition store_in_cosmosdb (uuid : string) (timestamp : string)
    (cf : option exn) (message_data : json) : M world (option string) :=
  try_except
    (let doc_id := uuid in
     let document :=
       JObj [("id", JStr doc_id);
             ("partitionKey", JStr doc_id);
             ("messageData", message_data);
             ("receivedTimestamp", JStr timestamp)] in
     create_item cf document ;;
     ret (Some doc_id))
    (fun e =>
       match e with
       | CosmosHttpResponseError _ => Some (ret None)
       | _ => Some (ret None)
       end).

(** What the environment decides while one message is handled. *)
Record delivery : Type := mk_delivery {
  uuid4 : string;
  received_timestamp : string;
  create_item_fault : option exn;
  created_now : string;
  sql_fault : fault;
  complete_fault : option exn
}.

(** Python truth of [doc_id]: [None] and the empty string are false. *)
Definition truthy (doc_id : option string) : bool :=
  match doc_id with
  | Some s => negb (String.eqb s "")
  | None => false
  end.

(** [receiver.complete_message(message)]. *)
Definition complete_message (env : delivery) (message : string) : M world unit :=
  match complete_fault env with
  | Some e => raise e
  | None =>
      modify (fun w => mk_world (container w) (workflow w) (workflow_step_status w)
                                (completed w ++ [message])%list (log w))
  end.

Section Ingestion.

(** [json.loads]: the value it returns or the exception it raises.
    That is [JSONDecodeError] for a text that is not JSON; for some
    texts it is another one ([ValueError] for an integer literal
    beyond the digit limit, [RecursionError] for deep nesting).  The
    program only stores the value returned. *)
Variable json_loads : string -> outcome json.

Definition loads (s : string) : M world json :=
  match json_loads s with
  | Ret v => ret v
  | Raise e => raise e
  end.

(** [process_message]; [message] is [str(message)]. *)
Definition process_message (env : delivery) (message : string) : M world unit :=
  try_except
    (message_data <- loads message ;;
     doc_id <- store_in_cosmosdb (uuid4 env) (received_timestamp env)
                 (create_item_fault env) message_data ;;
     let workflow_id := doc_id in
     match workflow_id with
     | Some wid =>
         if truthy workflow_id
         then (_ <- insert_workflow_record (sql_fault env) (created_now env) wid ;;
               ret tt)
         else ret tt
     | None => ret tt
     end)
    (fun e =>
       match e with
       | JSONDecodeError _ =>
           Some (let raw_message_data := JObj [("rawMessage", JStr message)] in
                 doc_id <- store_in_cosmosdb (uuid4 env) (received_timestamp env)
                             (create_item_fault env) raw_message_data ;;
                 ret tt)
       | _ => None
       end).

(** One turn of the loop of [start_listening]. *)
Definition receive (d : string * delivery) : M world unit :=
  let (message, env) := d in
  try_except
    (process_message env message ;;
     complete_message env message)
    (fun e => Some (ret tt)).

(** [start_listening], over the messages the receiver yields. *)
Fixpoint start_listening (deliveries : list (string * delivery)) : M world unit :=
  match deliveries with
  | [] => ret tt
  | d :: rest => receive d ;; start_listening rest
  end.

End Ingestion.

(** A parser for the closed examples: it accepts the JSON texts
    [null], [true], [false], [{}] and [[]] and raises
    [JSONDecodeError] for every other text. *)
Definition json_loads_literals (s : string) : outcome json :=
  if String.eqb s "null" then Ret JNull
  else if String.eqb s "true" then Ret (JBool true)
  else if String.eqb s "false" then Ret (JBool false)
  else if String.eqb s "{}" then Ret (JObj [])
  else if String.eqb s "[]" then Ret (JArr [])
  else Raise (JSONDecodeError "Expecting value").

(** ** commercial_loan_agent.py: [CommercialLoanPlugin] *)

Definition nl : string := String (ascii_of_nat 10) EmptyString.
Definition dquote : string := String (ascii_of_nat 34) EmptyString.
Definition indent : string := "        ".

(** What the chat service does when [validate_application] calls it. *)
Inductive llm_reply : Type :=
| ReplyRaises (e : exn)
| ReplyContent (content : string)      (* the response has an attribute content *)
| ReplyOther (str_response : string).  (* it has none: str(response) is used *)

(** [AzureChatCompletion(...)], built before the [try]. *)
Definition AzureChatCompletion (service_fault : option exn) : M world unit :=
  match service_fault with
  | Some e => raise e
  | None => ret tt
  end.

(** [llm_service.get_chat_message_content(chat_history=..., settings=None)]. *)
Definition get_chat_message_content (reply : llm_reply) (prompt : string)
    : M world llm_reply :=
  match reply with
  | ReplyRaises e => raise e
  | r => ret r
  end.

Definition validation_prompt (application_data : string) : string :=
  nl ++ indent ++ "Please analyze the following loan application and confirm if it contains all required information:"
  ++ nl ++ indent
  ++ nl ++ indent ++ "Required criteria:"
  ++ nl ++ indent ++ "- Name (applicant name)"
  ++ nl ++ indent ++ "- Address (street address)"
  ++ nl ++ indent ++ "- Zip Code"
  ++ nl ++ indent ++ "- Email"
  ++ nl ++ indent
  ++ nl ++ indent ++ "Application Data:"
  ++ nl ++ indent ++ application_data
  ++ nl ++ indent
  ++ nl ++ indent ++ "Respond with either:"
  ++ nl ++ indent ++ "- " ++ dquote ++ "VALID: Application contains all required information" ++ dquote
  ++ nl ++ indent ++ "- " ++ dquote ++ "INVALID: Missing [list missing items]" ++ dquote
  ++ nl
  ++ nl ++ indent ++ "ONLY confirm this information. Do not provide any additional comments or explanations."
  ++ nl ++ indent.

(** The f-string [final_result]. *)
Definition final_result (application_data validation_result : string) : string :=
  nl ++ indent ++ "Application Data: " ++ application_data
  ++ nl ++ indent ++ "Validation Result: " ++ validation_result
  ++ nl ++ indent ++ "Criteria Checked: Name, Address, Zip Code, Email"
  ++ nl ++ indent.

(** [validate_application].  The logger runs at level INFO, so the two
    [logger.debug] calls write nothing. *)
Definition validate_application (service_fault : option exn) (reply : llm_reply)
    (application_data : string) : M world string :=
  logger_info ("validate_application called with application_data: "
               ++ substring 0 100 application_data ++ "...") ;;
  logger_info "Creating LLM service for application validation" ;;
  llm_service <- AzureChatCompletion service_fault ;;
  let prompt := validation_prompt application_data in
  logger_info "Created validation prompt, calling LLM service..." ;;
  validation_result <-
    try_except
      (response <- get_chat_message_content reply prompt ;;
       logger_info "LLM service call completed successfully" ;;
       match response with
       | ReplyContent content =>
           logger_info ("Extracted content from LLM response: " ++ content) ;;
           ret content
       | ReplyOther s =>
           logger_info ("Converted LLM response to string: " ++ s) ;;
           ret s
       | ReplyRaises e => raise e
       end)
      (fun e =>
         Some (logger_error ("LLM service call failed: " ++ str_exn e) ;;
               ret "VALID")) ;;
  logger_info "validate_application completed successfully" ;;
  ret (final_result application_data validation_result).

(** [random.randint(a, b)] is [a + _randbelow(b - a + 1)]; [draw] is
    what the generator yields, reduced to the range asked for. *)
Definition randbelow (n : Z) (draw : Z) : Z := draw mod n.

Definition randint (a b : Z) (draw : Z) : Z := a + randbelow (b - a + 1) draw.

(** [get_credit_score]. *)
Definition get_credit_score (draw : Z) (application_data : string) : Z :=
  let credit_score := randint 790 840 draw in
  credit_score.

(** ** The command line of the two agents

    [parse_arguments] and [run] are the same in
    [commercial_loan_agent.py] and [status_logging_agent.py], up to the
    agent's name in the log. *)

(** One occurrence of an option on the command line, with its text. *)
Inductive arg : Type :=
| Transport (value : string)    (* --transport value *)
| Port (value : string).        (* --port value *)

Record namespace : Type := mk_namespace {
  transport : string;
  port : option Z
}.

Inductive parsed : Type :=
| Namespace (ns : namespace)
| UsageError (msg : string).    (* argparse prints the usage and exits with status 2 *)

Section CommandLine.

(** [type=int]: Python's [int()] on the text of the option, [None]
    where it raises [ValueError]. *)
Variable py_int : string -> option Z.

Definition choices : list string := ["sse"; "stdio"].

Fixpoint parse_args (args : list arg) (ns : namespace) : parsed :=
  match args with
  | [] => Namespace ns
  | Transport v :: rest =>
      if existsb (String.eqb v) choices
      then parse_args rest (mk_namespace v (port ns))
      else UsageError "argument --transport: invalid choice"
  | Port v :: rest =>
      match py_int v with
      | Some p => parse_args rest (mk_namespace (transport ns) (Some p))
      | None => UsageError "argument --port: invalid int value"
      end
  end.

(** [parse_arguments]: [--transport] defaults to stdio, [--port] to
    [None]; neither option is declared [required]. *)
Definition parse_arguments (args : list arg) : parsed :=
  parse_args args (mk_namespace "stdio" None).

End CommandLine.

(** An [int()] for the closed examples: decimal digits with an
    optional sign, where it agrees with Python's. *)
Definition int_of_decimal (s : string) : option Z :=
  match s with
  | String "+"%char digits => option_map Z.of_uint (NilZero.uint_of_string digits)
  | _ => option_map Z.of_int (NilZero.int_of_string s)
  end.

Inductive server : Type :=
| SseServer (on_port : Z)   (* uvicorn.run(starlette_app, host=..., port=port) *)
| StdioServer.              (* server.run over stdio_server() *)

(** [ChatCompletionAgent(service=AzureChatCompletion(...), ...)]. *)
Definition ChatCompletionAgent (agent_fault : option exn) : M world unit :=
  match agent_fault with
  | Some e => raise e
  | None => ret tt
  end.

Definition is_some {A} (o : option A) : bool :=
  match o with Some _ => true | None => false end.

(** [str(port)] in an f-string. *)
Definition str_port (port : option Z) : string :=
  match port with
  | Some p => str_int p
  | None => "None"
  end.

(** What the environment decides while [run] hosts the agent: which of
    the calls into the libraries raise, and how many requests arrive. *)
Record hosting : Type := mk_hosting {
  agent_fault : option exn;         (* ChatCompletionAgent(...) *)
  mcp_server_fault : option exn;    (* agent.as_mcp_server() *)
  sse_setup_fault : option exn;     (* the imports, SseServerTransport, Starlette, nest_asyncio.apply *)
  sse_requests : nat;               (* calls of handle_sse while uvicorn runs *)
  uvicorn_fault : option exn;       (* uvicorn.run, for one a port it cannot bind *)
  stdio_import_fault : option exn;  (* from mcp.server.stdio import stdio_server *)
  stdio_server_fault : option exn;  (* entering stdio_server() *)
  server_run_fault : option exn     (* server.run over the stdio streams, and leaving them *)
}.

(** A call into a library: it returns, or raises what the environment says. *)
Definition library_call (f : option exn) : M world unit :=
  match f with
  | Some e => raise e
  | None => ret tt
  end.

(** [handle_sse] logs one line for each request; what goes wrong
    inside a request stays inside uvicorn. *)
Fixpoint handle_sse (requests : nat) : M world unit :=
  match requests with
  | O => ret tt
  | S n => logger_info "Handling SSE request..." ;; handle_sse n
  end.

(** [uvicorn.run(starlette_app, host="127.0.0.1", port=port)]. *)
Definition uvicorn_run (env : hosting) : M world unit :=
  handle_sse (sse_requests env) ;;
  library_call (uvicorn_fault env).

(** [run]; the result is the server it has run, if any. *)
Definition run (agent_name : string) (env : hosting)
    (transport : string) (port : option Z) : M world (option server) :=
  logger_info ("Starting " ++ agent_name ++ " Agent with transport: " ++ transport) ;;
  match port with
  | Some p => if Z.eqb p 0 then ret tt
              else logger_info ("Using port: " ++ str_int p)
  | None => ret tt
  end ;;
  logger_info "Creating ChatCompletionAgent..." ;;
  agent <- ChatCompletionAgent (agent_fault env) ;;
  logger_info "Creating MCP server from agent..." ;;
  server <- library_call (mcp_server_fault env) ;;
  if String.eqb transport "sse" && is_some port then
    logger_info "Starting SSE server..." ;;
    library_call (sse_setup_fault env) ;;
    logger_info ("Starting uvicorn server on port " ++ str_port port) ;;
    uvicorn_run env ;;
    ret (option_map SseServer port)
  else if String.eqb transport "stdio" then
    logger_info "Starting STDIO server..." ;;
    library_call (stdio_import_fault env) ;;
    logger_info "Setting up STDIO connection..." ;;
    library_call (stdio_server_fault env) ;;
    logger_info "STDIO server ready, running MCP server..." ;;
    library_call (server_run_fault env) ;;
    logger_info "STDIO server completed" ;;
    ret (Some StdioServer)
  else ret None.

Inductive process_end : Type :=
| Exit2                               (* the parser rejected the command line *)
| Exit0 (served : option server).     (* run returned *)

(** The [if __name__ == "__main__":] block.  An exception of [run] is
    logged and raised again. *)
Definition main (py_int : string -> option Z) (agent_name : string)
    (env : hosting) (args : list arg) : M world process_end :=
  logger_info "Commercial Loan Agent starting up..." ;;
  match parse_arguments py_int args with
  | UsageError _ => ret Exit2
  | Namespace a =>
      logger_info ("Parsed arguments - transport: " ++ transport a
                   ++ ", port: " ++ str_port (port a)) ;;
      try_except
        (served <- run agent_name env (transport a) (port a) ;;
         ret (Exit0 served))
        (fun e =>
           Some (logger_error ("Error running Commercial Loan Agent: " ++ str_exn e) ;;
                 logger_error "Full traceback:" ;;
                 raise e))
  end.

(** The environment [env] with the agent and its MCP server built. *)
Definition agent_built (env : hosting) : hosting :=
  mk_hosting None None (sse_setup_fault env) (sse_requests env) (uvicorn_fault env)
             (stdio_import_fault env) (stdio_server_fault env) (server_run_fault env).

(** An environment in which no library call raises and no request arrives. *)
Definition quiet : hosting := mk_hosting None None None 0 None None None None.

(** The first exception of a sequence of library calls. *)
Fixpoint first_raised (faults : list (option exn)) : option exn :=
  match faults with
  | [] => None
  | Some e :: _ => Some e
  | None :: rest => first_raised rest
  end.


(** ** Histories of a workflow record

    The three functions that write to the relational store, as the
    operations of a history. *)
Inductive operation : Type :=
| OpInsert (f : fault) (now wid : string)
| OpLogStep (f : fault) (now comment : string) (s : Z) (wid st : string)
| OpUpdate (f : fault) (s : Z) (wid st : string).

Definition perform (w : world) (op : operation) : world :=
  match op with
  | OpInsert f now wid => snd (insert_workflow_record f now wid w)
  | OpLogStep f now comment s wid st => snd (log_step f now comment s wid st w)
  | OpUpdate f s wid st => snd (update_workflow_status f s wid st w)
  end.

Definition perform_all (ops : list operation) (w : world) : world :=
  fold_left perform ops w.

Definition terminal (st : string) : Prop := st = "Completed" \/ st = "Failed".

(** The record at position [i] of the table keeps its status and its
    step through every history, once its status is terminal. *)
Definition terminal_states_are_final : Prop :=
  forall ops w i r,
    nth_error (workflow w) i = Some r ->
    terminal (status r) ->
    exists r',
      nth_error (workflow (perform_all ops w)) i = Some r' /\
      status r' = status r /\ current_step r' = current_step r.

(** The step of the record at position [i] never goes down. *)
Definition current_step_never_decreases : Prop :=
  forall ops w i r,
    nth_error (workflow w) i = Some r ->
    exists r',
      nth_error (workflow (perform_all ops w)) i = Some r' /\
      current_step r <= current_step r'.

(** What an operation writes to the step of the records with id [wid]. *)
Definition written_step (wid : string) (op : operation) : option Z :=
  match op with
  | OpUpdate NoFault s wid' _ => if String.eqb wid wid' then Some s else None
  | _ => None
  end.

(** The step a record with id [wid] holds after [ops], from [s0]. *)
Definition step_after (wid : string) (ops : list operation) (s0 : Z) : Z :=
  fold_left (fun s op => match written_step wid op with
                         | Some s' => s'
                         | None => s
                         end) ops s0.

(** The exception a faulty driver raises. *)
Definition raised (f : fault) : option exn :=
  match f with
  | NoFault => None
  | ConnectRaises e | ExecuteRaises e | CommitRaises e => Some e
  end.

Definition with_log (w : world) (entries : list (level * string)) : world :=
  mk_world (container w) (workflow w) (workflow_step_status w) (completed w)
           (log w ++ entries)%list.

(** The document [store_in_cosmosdb] builds. *)
Definition document_of (env : delivery) (message_data : json) : json :=
  JObj [("id", JStr (uuid4 env));
        ("partitionKey", JStr (uuid4 env));
        ("messageData", message_data);
        ("receivedTimestamp", JStr (received_timestamp env))].

(** Every message that the document store has taken gets a record
    keyed by the document's id, with status Initial and step 1. *)
Definition stored_message_gets_record (json_loads : string -> outcome json) : Prop :=
  forall env message w doc,
    container (snd (process_message json_loads env message w))
      = (container w ++ [doc])%list ->
    workflow (snd (process_message json_loads env message w))
      = (workflow w ++ [mk_workflow_row (uuid4 env) "Initial" 1 (created_now env)])%list.

(** ** commercial_loan_agent.py: [get_approval] *)

(** [random.choice(seq)] is [seq[_randbelow(len(seq))]]. *)
Definition choice (seq : list string) (draw : Z) : string :=
  nth (Z.to_nat (randbelow (Z.of_nat (length seq)) draw)) seq "".

(** [get_approval]; [time.sleep(10)] only delays the answer. *)
Definition get_approval (draw : Z) (application_data : string) : string :=
  let approval_status := choice ["approved"; "pending"; "rejected"] draw in
  approval_status.

(** ** processor.py: [send_message] *)

(** The attributes [ServiceBusHelper.__init__] assigns to [self]. *)
Definition ServiceBusHelper_attributes : list string :=
  ["connection_string"; "queue_name"; "cosmos_client"; "database";
   "container"; "sql_connection_string"].

(** The queue a sender writes to, and the console. *)
Record outbox : Type := mk_outbox {
  sent : list string;
  console : list string
}.

Definition print_line (line : string) : M outbox unit :=
  modify (fun o => mk_outbox (sent o) (console o ++ [line])%list).

(** [self.<name>]: [AttributeError] for a name [__init__] never set. *)
Definition self_attribute (name : string) : M outbox unit :=
  if existsb (String.eqb name) ServiceBusHelper_attributes
  then ret tt
  else raise (OtherException
                ("'ServiceBusHelper' object has no attribute '" ++ name ++ "'")).

(** [sender.send_messages(message)]. *)
Definition send_messages (send_fault : option exn) (message : string)
    : M outbox unit :=
  match send_fault with
  | Some e => raise e
  | None => modify (fun o => mk_outbox (sent o ++ [message])%list (console o))
  end.

Section Sending.

(** [json.dumps]. *)
Variable json_dumps : json -> string.

(** [send_message]. *)
Definition send_message (send_fault : option exn) (message_body : json)
    : M outbox unit :=
  try_except
    (self_attribute "client" ;;
     let message_json := json_dumps message_body in
     send_messages send_fault message_json ;;
     print_line ("Message sent: " ++ message_json))
    (fun e => Some (print_line ("Error sending message: " ++ str_exn e))).

End Sending.

(** ** orchestrator_agent.py: [main] *)

(** [d.get(key)] on a dict, each key being there once. *)
Fixpoint dict_get (key : string) (fields : list (string * json)) : option json :=
  match fields with
  | [] => None
  | (k, v) :: rest => if String.eqb k key then Some v else dict_get key rest
  end.

Definition json_get (key : string) (doc : json) : option json :=
  match doc with
  | JObj fields => dict_get key fields
  | _ => None
  end.

(** [c.partitionKey = '<key>'] on one document. *)
Definition has_partition_key (key : string) (doc : json) : bool :=
  match json_get "partitionKey" doc with
  | Some (JStr s) => String.eqb s key
  | _ => false
  end.

(** A text that stays one string literal between the quotes of the query. *)
Definition quote_free (s : string) : bool :=
  negb (existsb (fun c => Ascii.eqb c "'"%char || Ascii.eqb c "\"%char)
                (list_ascii_of_string s)).

(** [str(x)] for [os.environ.get(...)]. *)
Definition str_opt (x : option string) : string :=
  match x with
  | Some s => s
  | None => "None"
  end.

(** The external systems, the messages given to [agent.get_response],
    and standard output. *)
Record agency : Type := mk_agency {
  systems : world;
  asked : list string;
  printed : list string
}.

Definition in_world {A} (c : M world A) : M agency A :=
  fun s =>
    match c (systems s) with
    | (r, w') => (r, mk_agency w' (asked s) (printed s))
    end.

Definition print (line : string) : M agency unit :=
  modify (fun s => mk_agency (systems s) (asked s) (printed s ++ [line])%list).

(** What the agent answers: [response.name], [str(response)], and
    whether [response.thread] is true. *)
Record reply : Type := mk_reply {
  reply_name : string;
  reply_text : string;
  reply_thread : bool
}.

(** What the environment decides during one run of [main]. *)
Record orchestration : Type := mk_orchestration {
  executable : string;
  commercial_loan_agent_path : string;
  commercial_loan_agent_exists : bool;
  status_logging_agent_path : string;
  status_logging_agent_exists : bool;
  plugin_fault : option exn;          (* entering the two MCPStdioPlugin contexts *)
  orchestrator_agent_fault : option exn;
  WORKFLOW_ID : option string;
  cosmos_fault : option exn;          (* CosmosClient(...) or query_items *)
  system_properties : json -> list (string * json);
                                      (* what Cosmos adds to an item it returns *)
  odd_query_items : outcome (list json);  (* the answer to a query whose key has a quote *)
  response : outcome reply;
  delete_fault : option exn           (* thread.delete() *)
}.

Definition MCPStdioPlugins (env : orchestration) : M agency unit :=
  match plugin_fault env with
  | Some e => raise e
  | None => ret tt
  end.

(** An item as a query returns it: the stored one with the system
    properties of Cosmos ([_rid], [_self], [_etag], [_attachments],
    [_ts]) behind its own. *)
Definition cosmos_item (env : orchestration) (doc : json) : json :=
  match doc with
  | JObj fields => JObj (fields ++ system_properties env doc)
  | other => other
  end.

(** [list(container.query_items(query=f"SELECT * FROM c WHERE
    c.partitionKey = '{workflow_id}'", ...))]. *)
Definition query_items (env : orchestration) (key : string) : M agency (list json) :=
  match cosmos_fault env with
  | Some e => raise e
  | None =>
      if quote_free key
      then fun s => (Ret (map (cosmos_item env)
                              (filter (has_partition_key key) (container (systems s)))),
                     s)
      else match odd_query_items env with
           | Ret items => ret items
           | Raise e => raise e
           end
  end.

(** [agent.get_response(messages=..., thread=thread)].  What the model
    has its tools do during the call is not part of [main]. *)
Definition get_response (env : orchestration) (messages : string) : M agency reply :=
  modify (fun s => mk_agency (systems s) (asked s ++ [messages])%list (printed s)) ;;
  match response env with
  | Ret r => ret r
  | Raise e => raise e
  end.

Definition thread_delete (env : orchestration) : M agency unit :=
  match delete_fault env with
  | Some e => raise e
  | None => ret tt
  end.

Section Orchestrator.

(** [str(d)] for a document of the container. *)
Variable py_str : json -> string.

(** [main].  The logger runs at level INFO; [traceback.print_exc()]
    writes to standard error and is left out. *)
Definition orchestrator_main (env : orchestration) : M agency unit :=
  try_except
    (in_world (logger_info "Starting orchestrator agent...") ;;
     in_world (logger_info ("Using Python executable: " ++ executable env)) ;;
     in_world (logger_info ("Commercial Loan agent path: "
                            ++ commercial_loan_agent_path env)) ;;
     if negb (commercial_loan_agent_exists env) then
       in_world (logger_error ("Error: " ++ commercial_loan_agent_path env
                               ++ " does not exist"))
     else
       in_world (logger_info ("Status Logging agent path: "
                              ++ status_logging_agent_path env)) ;;
       if negb (status_logging_agent_exists env) then
         in_world (logger_error ("Error: " ++ status_logging_agent_path env
                                 ++ " does not exist"))
       else
         in_world (logger_info "Attempting to connect to Commercial Loan MCP plugin...") ;;
         MCPStdioPlugins env ;;
         in_world (logger_info "Successfully connected to status logging agent and Commmercial Loan Agent via MCP") ;;
         agent <- in_world (ChatCompletionAgent (orchestrator_agent_fault env)) ;;
         in_world (logger_info "ChatCompletionAgent created with commercial loan plugin") ;;
         in_world (logger_info "Starting interactive chat loop. Type 'exit' to quit.") ;;
         let workflow_id := WORKFLOW_ID env in
         items <- query_items env (str_opt workflow_id) ;;
         user_input <-
           match items with
           | item :: _ =>
               in_world (logger_info ("Retrieved JSON document for workflow_id "
                                      ++ str_opt workflow_id ++ ": " ++ py_str item)) ;;
               ret (py_str item)
           | [] =>
               in_world (logger_error ("No document found for workflow_id "
                                       ++ str_opt workflow_id)) ;;
               ret ""
           end ;;
         in_world (logger_info ("User input: " ++ user_input)) ;;
         in_world (logger_info "Invoking agent to process user request...") ;;
         response <- get_response env user_input ;;
         in_world (logger_info ("Agent response received from " ++ reply_name response)) ;;
         print ("# " ++ reply_name response ++ ": " ++ reply_text response ++ " ") ;;
         in_world (logger_info "Cleaning up chat thread...") ;;
         (if reply_thread response then thread_delete env else ret tt) ;;
         in_world (logger_info "Chat thread cleanup completed"))
    (fun e =>
       Some (in_world (logger_error ("Error in orchestrator: " ++ str_exn e)) ;;
             in_world (logger_error "Full traceback:") ;;
             print ("Error in orchestrator: " ++ str_exn e))).

End Orchestrator.

(** [str(x)] for the closed examples: the text Python gives for a
    value whose strings hold no quote, backslash or control character. *)
Fixpoint py_repr (j : json) : string :=
  match j with
  | JNull => "None"
  | JBool true => "True"
  | JBool false => "False"
  | JNum n => str_int n
  | JStr s => "'" ++ s ++ "'"
  | JArr items => "[" ++ String.concat ", " (map py_repr items) ++ "]"
  | JObj fields =>
      "{" ++ String.concat ", "
               (map (fun kv => match kv with
                               | (k, v) => "'" ++ k ++ "': " ++ py_repr v
                               end) fields)
      ++ "}"
  end.

(** System properties for the closed examples. *)
Definition sample_system_properties (doc : json) : list (string * json) :=
  [("_rid", JStr "Xk9pAA==");
   ("_self", JStr "dbs/Xk9pAA==/colls/Xk9pAA==/docs/Xk9pAA==/");
   ("_etag", JStr "00000000-0000-0000-0000-000000000000");
   ("_attachments", JStr "attachments/");
   ("_ts", JNum 1735689600)].

Definition raised_by {A} (r : outcome A) : option exn :=
  match r with
  | Raise e => Some e
  | Ret _ => None
  end.

(** What the query raises for a key that holds a quote. *)
Definition odd_query_fault (env : orchestration) : option exn :=
  if quote_free (str_opt (WORKFLOW_ID env)) then None
  else raised_by (odd_query_items env).

(** The reply [main] gets from the agent, when it gets that far. *)
Definition answered (env : orchestration) : option reply :=
  if commercial_loan_agent_exists env && status_logging_agent_exists env then
    match first_raised [plugin_fault env; orchestrator_agent_fault env;
                        cosmos_fault env; odd_query_fault env] with
    | Some _ => None
    | None =>
        match response env with
        | Ret r => Some r
        | Raise _ => None
        end
    end
  else None.

(** The exception that the outer handler of [main] catches, if any:
    that of the first call that raises. *)
Definition caught (env : orchestration) : option exn :=
  if commercial_loan_agent_exists env && status_logging_agent_exists env then
    first_raised [plugin_fault env; orchestrator_agent_fault env;
                  cosmos_fault env; odd_query_fault env;
                  raised_by (response env);
                  match response env with
                  | Ret r => if reply_thread r then delete_fault env else None
                  | Raise _ => None
                  end]
  else None.

Definition ends_with {A} (l suffix : list A) : Prop :=
  exists front, l = (front ++ suffix)%list.

(** The entries [main] logs when a script is missing. *)
Definition missing_script_entries (env : orchestration) : list (level * string) :=
  app [(INFO, "Starting orchestrator agent...");
       (INFO, "Using Python executable: " ++ executable env);
       (INFO, "Commercial Loan agent path: " ++ commercial_loan_agent_path env)]
      (if commercial_loan_agent_exists env
       then [(INFO, "Status Logging agent path: " ++ status_logging_agent_path env);
             (ERROR, "Error: " ++ status_logging_agent_path env ++ " does not exist")]
       else [(ERROR, "Error: " ++ commercial_loan_agent_path env ++ " does not exist")]).

(** ** What a history adds to the two tables *)

Definition logged_row (op : operation) : list step_status_row :=
  match op with
  | OpLogStep NoFault now comment s wid st =>
      [mk_step_status_row s wid comment now st]
  | _ => []
  end.

Definition inserted_row (op : operation) : list workflow_row :=
  match op with
  | OpInsert NoFault now wid => [mk_workflow_row wid "Initial" 1 now]
  | _ => []
  end.

(** What never changes in a record. *)
Definition record_key (r : workflow_row) : string * string :=
  (id r, created_date r).

(** ** What one delivery adds to the stores *)

(** [json.loads] returned, or raised the one exception that
    [process_message] catches. *)
Definition handled (r : outcome json) : bool :=
  match r with
  | Ret _ => true
  | Raise (JSONDecodeError _) => true
  | Raise _ => false
  end.

Definition stored_value (json_loads : string -> outcome json) (message : string) : json :=
  match json_loads message with
  | Ret v => v
  | Raise _ => JObj [("rawMessage", JStr message)]
  end.

Definition stored_documents (json_loads : string -> outcome json)
    (d : string * delivery) : list json :=
  if handled (json_loads (fst d)) then
    match create_item_fault (snd d) with
    | Some _ => []
    | None => [document_of (snd d) (stored_value json_loads (fst d))]
    end
  else [].

Definition created_records (json_loads : string -> outcome json)
    (d : string * delivery) : list workflow_row :=
  match json_loads (fst d), create_item_fault (snd d), sql_fault (snd d) with
  | Ret _, None, NoFault =>
      if String.eqb (uuid4 (snd d)) "" then []
      else [mk_workflow_row (uuid4 (snd d)) "Initial" 1 (created_now (snd d))]
  | _, _, _ => []
  end.

Definition is_completed (d : string * delivery) : bool :=
  match complete_fault (snd d) with
  | Some _ => false
  | None => true
  end.

(** The loop reaches [complete_message] for the delivery, and the call
    does not raise. *)
Definition is_removed (json_loads : string -> outcome json)
    (d : string * delivery) : bool :=
  handled (json_loads (fst d)) && is_completed d.

(** * Properties *)

(** ** The credit score *)

Lemma randint_range a b draw : a <= b -> a <= randint a b draw <= b.
Proof.
  intros Hab. unfold randint, randbelow.
  assert (0 <= draw mod (b - a + 1) < b - a + 1) by (apply Z.mod_pos_bound; lia).
  lia.
Qed.

Lemma get_credit_score_range draw application_data :
  790 <= get_credit_score draw application_data <= 840.
Proof. unfold get_credit_score. apply randint_range. lia. Qed.

(** C7: for every input, [get_credit_score] returns an integer in the
    range 300..850. *)
Theorem get_credit_score_plausible :
  forall (draw : Z) (application_data : string),
    300 <= get_credit_score draw application_data <= 850.
Proof.
  intros draw application_data.
  pose proof (get_credit_score_range draw application_data). lia.
Qed.

(** Every score from 790 to 840 is returned for some draw. *)
Lemma get_credit_score_reaches n application_data :
  790 <= n <= 840 -> get_credit_score (n - 790) application_data = n.
Proof.
  intros Hn. unfold get_credit_score, randint, randbelow.
  rewrite Z.mod_small by lia. lia.
Qed.

(** ** The status logging capabilities *)

Lemma log_step_returns f now comment s wid st w :
  fst (log_step f now comment s wid st w) = Ret true.
Proof. destruct f; reflexivity. Qed.

Lemma update_workflow_status_returns f s wid st w :
  fst (update_workflow_status f s wid st w) = Ret true.
Proof. destruct f; reflexivity. Qed.

(** C9: [log_step] and [update_workflow_status] return [True] whatever
    the driver does; when it raises, the exception is logged, nothing
    is written to the tables, and the value returned is the same. *)
Theorem status_capabilities_return_True_on_failure :
  forall f now comment s wid st w,
    fst (log_step f now comment s wid st w) = Ret true /\
    fst (update_workflow_status f s wid st w) = Ret true /\
    match raised f with
    | Some e =>
        snd (log_step f now comment s wid st w)
        = with_log w
            [(INFO, "log_step called with step_status_comment: " ++ comment
                    ++ ", step: " ++ str_int s
                    ++ ", workflow_id: " ++ wid ++ ", status: ");
             (ERROR, "Failed to log workflow status to the database: " ++ str_exn e)]
        /\
        snd (update_workflow_status f s wid st w)
        = with_log w
            [(INFO, "update_workflow called with current_step: " ++ str_int s
                    ++ ", workflow_id: " ++ wid ++ ", status: " ++ st);
             (ERROR, "Failed to update workflow status in the database: " ++ str_exn e)]
    | None => True
    end.
Proof.
  intros f now comment s wid st w.
  split; [apply log_step_returns|].
  split; [apply update_workflow_status_returns|].
  destruct f; simpl raised; auto; split;
    unfold log_step, update_workflow_status, with_log; cbn;
    rewrite <- app_assoc; reflexivity.
Qed.

(** ** Validation *)

(** C10: when the call to the chat service raises, whatever the
    exception and the application, [validate_application] returns the
    result text with the validation result VALID. *)
Theorem validate_application_VALID_when_llm_raises :
  forall (e : exn) (application_data : string) (w : world),
    fst (validate_application None (ReplyRaises e) application_data w)
    = Ret (final_result application_data "VALID").
Proof. intros e application_data w. reflexivity. Qed.

(** The failure is logged and nothing else of the world changes. *)
Lemma validate_application_logs_failure e application_data w :
  snd (validate_application None (ReplyRaises e) application_data w)
  = with_log w
      [(INFO, "validate_application called with application_data: "
              ++ substring 0 100 application_data ++ "...");
       (INFO, "Creating LLM service for application validation");
       (INFO, "Created validation prompt, calling LLM service...");
       (ERROR, "LLM service call failed: " ++ str_exn e);
       (INFO, "validate_application completed successfully")].
Proof.
  unfold validate_application, with_log. cbn.
  repeat rewrite <- app_assoc. reflexivity.
Qed.

(** A reply is passed on as it is. *)
Lemma validate_application_passes_reply content application_data w :
  fst (validate_application None (ReplyContent content) application_data w)
  = Ret (final_result application_data content).
Proof. reflexivity. Qed.

(** The service is built outside the [try]: its exception propagates. *)
Lemma validate_application_service_fault e reply application_data w :
  fst (validate_application (Some e) reply application_data w) = Raise e.
Proof. reflexivity. Qed.

(** ** The command line *)

Lemma parse_arguments_default py_int :
  parse_arguments py_int [] = Namespace (mk_namespace "stdio" None).
Proof. reflexivity. Qed.

Lemma main_stdio_without_port py_int agent_name w :
  fst (main py_int agent_name quiet [] w) = Ret (Exit0 (Some StdioServer)).
Proof. reflexivity. Qed.

Lemma main_sse_with_port agent_name w :
  fst (main int_of_decimal agent_name quiet [Transport "sse"; Port "8080"] w)
  = Ret (Exit0 (Some (SseServer 8080))).
Proof. reflexivity. Qed.

Lemma main_rejects_unknown_transport py_int agent_name env w :
  fst (main py_int agent_name env [Transport "http"] w) = Ret Exit2.
Proof. reflexivity. Qed.

(** [run] serves nothing, and raises nothing, for sse without a port. *)
Lemma run_sse_without_port agent_name env w :
  fst (run agent_name (agent_built env) "sse" None w) = Ret None.
Proof. reflexivity. Qed.

(** C8, at the command line [--transport sse]: the parser accepts it
    with [port = None], [run] starts no server and returns, and the
    process ends with status 0, whatever [int()] and the servers
    would have done. *)
Theorem sse_without_port_is_accepted :
  forall (py_int : string -> option Z) (agent_name : string)
         (env : hosting) (w : world),
    parse_arguments py_int [Transport "sse"] = Namespace (mk_namespace "sse" None) /\
    fst (main py_int agent_name (agent_built env) [Transport "sse"] w)
    = Ret (Exit0 None).
Proof. intros py_int agent_name env w. split; reflexivity. Qed.

(** ** Ingestion *)

(** The loop completes every message that [json.loads] returns for, or
    rejects as not JSON, and whose completion does not itself raise,
    whatever became of the two writes. *)
Lemma receive_completes json_loads message env w :
  handled (json_loads message) = true ->
  complete_fault env = None ->
  completed (snd (receive json_loads (message, env) w))
  = (completed w ++ [message])%list.
Proof.
  intros Hh Hc. unfold receive, process_message, loads, complete_message,
    store_in_cosmosdb, create_item, insert_workflow_record, truthy.
  rewrite Hc.
  destruct (json_loads message) as [v|[]]; try discriminate Hh;
    destruct (create_item_fault env) as [[]|];
    destruct (sql_fault env) as [|[]|[]|[]];
    destruct (String.eqb (uuid4 env) "") eqn:Hid;
    cbv -[String.eqb uuid4]; rewrite ?Hid; reflexivity.
Qed.

(** C1, where the document store raises: the message is completed
    although no document and no workflow record was written.  This is
    so for every message that [json.loads] returns for or rejects as
    not JSON, the text [{}] among them; a message for which it raises
    another exception is the only one left in the queue. *)
Theorem message_completed_although_store_failed :
  forall (json_loads : string -> outcome json) (message : string) (w : world),
    let env := mk_delivery "0b5c" "2025-01-01T00:00:00Z"
                 (Some (CosmosHttpResponseError "Service Unavailable"))
                 "2025-01-01 00:00:00" NoFault None in
    let w' := snd (start_listening json_loads [(message, env)] w) in
    completed w' =
      (completed w ++ (if handled (json_loads message) then [message] else []))%list /\
    container w' = container w /\
    workflow w' = workflow w.
Proof.
  intros json_loads message w. cbn.
  unfold receive, process_message, loads.
  destruct (json_loads message) as [v|[]]; cbn; rewrite ?app_nil_r; auto.
Qed.

(** At the text [{}] and the parser of the examples. *)
Lemma message_completed_although_store_failed_at_braces :
  let env := mk_delivery "0b5c" "2025-01-01T00:00:00Z"
               (Some (CosmosHttpResponseError "Service Unavailable"))
               "2025-01-01 00:00:00" NoFault None in
  let w' := snd (start_listening json_loads_literals [("{}", env)] empty_world) in
  completed w' = ["{}"] /\ container w' = [] /\ workflow w' = [].
Proof. cbn. auto. Qed.

(** The same where the insert into [workflow] raises: the document is
    stored, no record exists, and the message is gone from the queue. *)
Lemma message_completed_although_insert_failed :
  let env := mk_delivery "0b5c" "2025-01-01T00:00:00Z" None
               "2025-01-01 00:00:00"
               (ExecuteRaises (PyodbcError "connection reset")) None in
  let w' := snd (start_listening json_loads_literals [("{}", env)] empty_world) in
  completed w' = ["{}"] /\
  container w' = [document_of env (JObj [])] /\
  workflow w' = [].
Proof. cbn. auto. Qed.

(** The branch for messages that are not JSON never inserts a record. *)
Lemma raw_message_inserts_nothing json_loads env message msg w :
  json_loads message = Raise (JSONDecodeError msg) ->
  workflow (snd (process_message json_loads env message w)) = workflow w.
Proof.
  intros Hj. unfold process_message, loads, store_in_cosmosdb, create_item.
  rewrite Hj.
  destruct (create_item_fault env) as [[]|]; reflexivity.
Qed.

(** It stores the text wrapped under the key rawMessage. *)
Lemma raw_message_is_stored json_loads env message msg w :
  json_loads message = Raise (JSONDecodeError msg) ->
  create_item_fault env = None ->
  container (snd (process_message json_loads env message w))
  = (container w ++ [document_of env (JObj [("rawMessage", JStr message)])])%list.
Proof.
  intros Hj Hc. unfold process_message, loads, store_in_cosmosdb, create_item.
  rewrite Hj, Hc. reflexivity.
Qed.

(** C3, at the message [hello]: it is stored as a raw payload and
    completed, and the table [workflow] has no record for it. *)
Theorem raw_message_gets_no_workflow_record :
  let env := mk_delivery "0b5c" "2025-01-01T00:00:00Z" None
               "2025-01-01 00:00:00" NoFault None in
  let w' := snd (start_listening json_loads_literals [("hello", env)] empty_world) in
  container w' = [document_of env (JObj [("rawMessage", JStr "hello")])] /\
  workflow w' = [] /\
  completed w' = ["hello"].
Proof. cbn. auto. Qed.

(** C6, at the message [hello] with both stores working: the
    document is stored under the fresh uuid, and the table [workflow]
    gets no record, keyed by that uuid or any other.  The claim as it
    is stated is false there. *)
Theorem stored_raw_message_has_no_record :
  let env := mk_delivery "0b5c" "2025-01-01T00:00:00Z" None
               "2025-01-01 00:00:00" NoFault None in
  let w' := snd (process_message json_loads_literals env "hello" empty_world) in
  container w' = [document_of env (JObj [("rawMessage", JStr "hello")])] /\
  json_get "id" (document_of env (JObj [("rawMessage", JStr "hello")]))
    = Some (JStr "0b5c") /\
  workflow w' = [] /\
  ~ stored_message_gets_record json_loads_literals.
Proof.
  cbn. repeat split.
  intros H.
  specialize (H (mk_delivery "0b5c" "2025-01-01T00:00:00Z" None
                   "2025-01-01 00:00:00" NoFault None)
                "hello" empty_world
                (JObj [("id", JStr "0b5c"); ("partitionKey", JStr "0b5c");
                       ("messageData", JObj [("rawMessage", JStr "hello")]);
                       ("receivedTimestamp", JStr "2025-01-01T00:00:00Z")])).
  cbn in H. specialize (H eq_refl). discriminate H.
Qed.

(** The sibling branch, for a message that parses: stored under a
    non-empty id it gets the document [document_of env v], and the
    table gains the one record (id, Initial, 1) keyed by the
    document's id when the insert succeeds, and nothing when it raises. *)
Theorem structured_message_gets_initial_record :
  forall (json_loads : string -> outcome json) env message v w,
    json_loads message = Ret v ->
    create_item_fault env = None ->
    String.eqb (uuid4 env) "" = false ->
    let w' := snd (process_message json_loads env message w) in
    container w' = (container w ++ [document_of env v])%list /\
    workflow w' =
      match sql_fault env with
      | NoFault =>
          (workflow w
             ++ [mk_workflow_row (uuid4 env) "Initial" 1 (created_now env)])%list
      | _ => workflow w
      end.
Proof.
  intros json_loads env message v w Hj Hc Hid.
  unfold process_message, loads, store_in_cosmosdb, create_item,
    insert_workflow_record, truthy, document_of.
  rewrite Hj, Hc.
  destruct (sql_fault env) as [|[]|[]|[]];
    cbv -[String.eqb uuid4 created_now received_timestamp container workflow app];
    rewrite Hid; cbn; auto.
Qed.

Lemma structured_message_gets_initial_record_witness :
  let env := mk_delivery "0b5c" "2025-01-01T00:00:00Z" None
               "2025-01-01 00:00:00" NoFault None in
  let w' := snd (process_message json_loads_literals env "{}" empty_world) in
  container w' = [document_of env (JObj [])] /\
  workflow w' = [mk_workflow_row "0b5c" "Initial" 1 "2025-01-01 00:00:00"].
Proof.
  exact (structured_message_gets_initial_record json_loads_literals
           (mk_delivery "0b5c" "2025-01-01T00:00:00Z" None
              "2025-01-01 00:00:00" NoFault None)
           "{}" (JObj []) empty_world eq_refl eq_refl eq_refl).
Defined.

(** ** The workflow table under the three writers *)

Lemma workflow_perform w op :
  workflow (perform w op) =
  match op with
  | OpInsert NoFault now wid =>
      (workflow w ++ [mk_workflow_row wid "Initial" 1 now])%list
  | OpUpdate NoFault s wid st => map (update_row s st wid) (workflow w)
  | _ => workflow w
  end.
Proof.
  destruct op as [f ? ?|f ? ? ? ? ?|f ? ? ?]; destruct f as [|e|e|e];
    try reflexivity; destruct e; reflexivity.
Qed.

(** One operation, seen from the record at position [i]. *)
Lemma nth_error_perform w op i r :
  nth_error (workflow w) i = Some r ->
  nth_error (workflow (perform w op)) i =
  Some match op with
       | OpUpdate NoFault s wid st =>
           if String.eqb (id r) wid then set_step_status s st r else r
       | _ => r
       end.
Proof.
  intros Hr. rewrite workflow_perform.
  assert (Happ : forall x, nth_error (workflow w ++ [x]) i = Some r).
  { intros x. rewrite nth_error_app1; [exact Hr|].
    apply nth_error_Some. rewrite Hr. discriminate. }
  destruct op as [f ? ?|f ? ? ? ? ?|f ? ? ?]; destruct f; auto.
  rewrite nth_error_map, Hr. reflexivity.
Qed.

(** C4 as stated fails: an update addressed to a Completed record
    rewrites its status and its step. *)
Lemma completed_record_is_rewritten : ~ terminal_states_are_final.
Proof.
  intros H.
  destruct (H [OpUpdate NoFault 1 "W1" "Initial"]
              (mk_world [] [mk_workflow_row "W1" "Completed" 3 "2025-01-01 00:00:00"]
                        [] [] [])
              0%nat
              (mk_workflow_row "W1" "Completed" 3 "2025-01-01 00:00:00")
              eq_refl (or_introl eq_refl))
    as [r' [Hnth [Hst _]]].
  cbn in Hnth. injection Hnth as <-. discriminate Hst.
Qed.

(** C4, amended: whatever the status of a record, terminal or not, a
    call of [update_workflow_status] with its id whose write succeeds
    sets its status and step to the arguments; every other operation
    (another id, a write that raises, [log_step], the insert of a new
    record) leaves it as it is. *)
Theorem only_matching_update_rewrites_record :
  forall w op i r,
    nth_error (workflow w) i = Some r ->
    exists r',
      nth_error (workflow (perform w op)) i = Some r' /\
      id r' = id r /\ created_date r' = created_date r /\
      (status r', current_step r') =
        match op with
        | OpUpdate NoFault s wid st =>
            if String.eqb (id r) wid then (st, s) else (status r, current_step r)
        | _ => (status r, current_step r)
        end.
Proof.
  intros w op i r Hr.
  eexists. split; [apply nth_error_perform; exact Hr|].
  destruct op as [f ? ?|f ? ? ? ? ?|f ? ? ?]; destruct f; auto.
  destruct (String.eqb (id r) wid); auto.
Qed.

Lemma only_matching_update_rewrites_record_witness :
  exists r',
    nth_error
      (workflow
         (perform
            (mk_world [] [mk_workflow_row "W1" "Failed" 2 "2025-01-01 00:00:00"]
                      [] [] [])
            (OpUpdate NoFault 5 "W1" "Completed"))) 0
    = Some r' /\
    id r' = "W1" /\ created_date r' = "2025-01-01 00:00:00" /\
    (status r', current_step r') = ("Completed", 5).
Proof.
  exact (only_matching_update_rewrites_record
           (mk_world [] [mk_workflow_row "W1" "Failed" 2 "2025-01-01 00:00:00"]
                     [] [] [])
           (OpUpdate NoFault 5 "W1" "Completed") 0%nat
           (mk_workflow_row "W1" "Failed" 2 "2025-01-01 00:00:00") eq_refl).
Defined.

(** C5 as stated fails: an update may pass a smaller step. *)
Lemma current_step_goes_down : ~ current_step_never_decreases.
Proof.
  intros H.
  destruct (H [OpUpdate NoFault 1 "W1" "Failed"]
              (mk_world [] [mk_workflow_row "W1" "Initial" 3 "2025-01-01 00:00:00"]
                        [] [] [])
              0%nat
              (mk_workflow_row "W1" "Initial" 3 "2025-01-01 00:00:00")
              eq_refl)
    as [r' [Hnth Hle]].
  cbn in Hnth. injection Hnth as <-. cbn in Hle. lia.
Qed.

(** C5, amended: through every history the record keeps its place and
    its id, and its step is the one passed by the last successful
    update addressed to its id (its own when there is none). *)
Theorem current_step_is_last_written :
  forall ops w i r,
    nth_error (workflow w) i = Some r ->
    exists r',
      nth_error (workflow (perform_all ops w)) i = Some r' /\
      id r' = id r /\
      current_step r' = step_after (id r) ops (current_step r).
Proof.
  induction ops as [|op ops IH]; intros w i r Hr.
  - exists r. auto.
  - pose proof (nth_error_perform w op i r Hr) as Hstep.
    destruct (IH _ _ _ Hstep) as [r' [Hnth [Hid Hcs]]].
    exists r'. split; [exact Hnth|].
    unfold step_after in *. cbn [fold_left].
    destruct op as [f ? ?|f ? ? ? ? ?|f ? ? ?]; destruct f; cbn in *; auto.
    destruct (String.eqb (id r) wid); cbn in *; auto.
Qed.

Lemma current_step_is_last_written_witness :
  exists r',
    nth_error
      (workflow
         (perform_all
            [OpUpdate NoFault 3 "W1" "Completed";
             OpLogStep NoFault "2025-01-01 00:00:01" "retry" 1 "W1" "Failed";
             OpUpdate NoFault 1 "W1" "Failed";
             OpUpdate (CommitRaises (PyodbcError "deadlock")) 7 "W1" "Completed";
             OpUpdate NoFault 9 "W2" "Completed"]
            (mk_world [] [mk_workflow_row "W1" "Initial" 1 "2025-01-01 00:00:00"]
                      [] [] []))) 0
    = Some r' /\
    id r' = "W1" /\ current_step r' = 1.
Proof.
  exact (current_step_is_last_written
           [OpUpdate NoFault 3 "W1" "Completed";
            OpLogStep NoFault "2025-01-01 00:00:01" "retry" 1 "W1" "Failed";
            OpUpdate NoFault 1 "W1" "Failed";
            OpUpdate (CommitRaises (PyodbcError "deadlock")) 7 "W1" "Completed";
            OpUpdate NoFault 9 "W2" "Completed"]
           (mk_world [] [mk_workflow_row "W1" "Initial" 1 "2025-01-01 00:00:00"]
                     [] [] [])
           0%nat (mk_workflow_row "W1" "Initial" 1 "2025-01-01 00:00:00") eq_refl).
Defined.

(** * Further properties of the code *)

(** ** The loan capabilities *)

(** The scores [get_credit_score] can return are exactly the integers
    from 790 to 840, whatever the application. *)
Theorem get_credit_score_exactly_790_840 :
  forall (application_data : string) (n : Z),
    (exists draw, get_credit_score draw application_data = n) <-> 790 <= n <= 840.
Proof.
  intros application_data n. split.
  - intros [draw <-]. apply get_credit_score_range.
  - intros Hn. exists (n - 790). apply get_credit_score_reaches. exact Hn.
Qed.

Lemma choice_three a b c draw :
  choice [a; b; c] draw = a \/ choice [a; b; c] draw = b \/ choice [a; b; c] draw = c.
Proof.
  unfold choice, randbelow. cbn [length Z.of_nat Pos.of_succ_nat Pos.succ].
  assert (H : 0 <= draw mod 3 < 3) by (apply Z.mod_pos_bound; lia).
  assert (Hk : draw mod 3 = 0 \/ draw mod 3 = 1 \/ draw mod 3 = 2) by lia.
  destruct Hk as [-> | [-> | ->]]; cbn; auto.
Qed.

(** The answers of [get_approval] are exactly approved, pending and
    rejected: each of them comes for some draw, and nothing else does. *)
Theorem get_approval_exactly_three_answers :
  forall (application_data : string) (answer : string),
    (exists draw, get_approval draw application_data = answer)
    <-> In answer ["approved"; "pending"; "rejected"].
Proof.
  intros application_data answer. split.
  - intros [draw <-]. unfold get_approval.
    destruct (choice_three "approved" "pending" "rejected" draw) as [-> | [-> | ->]];
      cbn; auto.
  - intros [<- | [<- | [<- | []]]];
      [exists 0 | exists 1 | exists 2]; reflexivity.
Qed.

(** Once the service object is built, [validate_application] returns
    for every reply and every application: the reply of the service is
    passed on as the validation result as it is, also when it says
    INVALID, and the application text is never examined. *)
Theorem validate_application_passes_verdict_on :
  forall (answer : llm_reply) (application_data : string) (w : world),
    fst (validate_application None answer application_data w)
    = Ret (final_result application_data
             match answer with
             | ReplyRaises _ => "VALID"
             | ReplyContent content => content
             | ReplyOther s => s
             end) /\
    container (snd (validate_application None answer application_data w)) = container w /\
    workflow (snd (validate_application None answer application_data w)) = workflow w /\
    workflow_step_status (snd (validate_application None answer application_data w))
    = workflow_step_status w.
Proof.
  intros answer application_data w. destruct answer; repeat split; reflexivity.
Qed.

(** ** The command line, continued *)

Lemma parse_args_transport py_int args :
  forall ns0 ns,
    transport ns0 = "sse" \/ transport ns0 = "stdio" ->
    parse_args py_int args ns0 = Namespace ns ->
    transport ns = "sse" \/ transport ns = "stdio".
Proof.
  induction args as [|[v|v] rest IH]; intros ns0 ns H0 Hp; cbn in Hp.
  - injection Hp as <-. exact H0.
  - destruct (String.eqb_spec v "sse") as [->|Hsse].
    + cbn in Hp. apply (IH (mk_namespace "sse" (port ns0)) ns); [left; reflexivity | exact Hp].
    + destruct (String.eqb_spec v "stdio") as [->|Hstdio].
      * cbn in Hp. apply (IH (mk_namespace "stdio" (port ns0)) ns); [right; reflexivity | exact Hp].
      * cbn in Hp. discriminate Hp.
  - destruct (py_int v) as [p|]; [|discriminate Hp].
    apply (IH (mk_namespace (transport ns0) (Some p)) ns); [exact H0 | exact Hp].
Qed.

(** A command line the parser accepts leaves [transport] at sse or
    stdio, whatever options were given and however often, and
    whatever [int()] makes of the ports. *)
Theorem parse_arguments_transport_is_a_choice :
  forall (py_int : string -> option Z) args a,
    parse_arguments py_int args = Namespace a ->
    transport a = "sse" \/ transport a = "stdio".
Proof.
  intros py_int args a Hp.
  apply (parse_args_transport py_int args (mk_namespace "stdio" None) a);
    [right; reflexivity | exact Hp].
Qed.

Lemma parse_arguments_transport_is_a_choice_witness :
  transport (mk_namespace "sse" (Some 8080)) = "sse"
  \/ transport (mk_namespace "sse" (Some 8080)) = "stdio".
Proof.
  exact (parse_arguments_transport_is_a_choice int_of_decimal
           [Port "1"; Transport "stdio"; Transport "sse"; Port "8080"]
           (mk_namespace "sse" (Some 8080)) eq_refl).
Defined.




(** When building the agent raises, [main] starts no server: the
    exception is logged, followed by the traceback line, and raised
    again, whatever the command line asked for. *)
Theorem main_reraises_agent_failure :
  forall (py_int : string -> option Z) (agent_name : string) (env : hosting)
         (e : exn) (args : list arg) (a : namespace) (w : world),
    agent_fault env = Some e ->
    parse_arguments py_int args = Namespace a ->
    fst (main py_int agent_name env args w) = Raise e /\
    log (snd (main py_int agent_name env args w)) =
      (log w
       ++ [(INFO, "Commercial Loan Agent starting up...");
           (INFO, ("Parsed arguments - transport: " ++ transport a
                   ++ ", port: " ++ str_port (port a))%string);
           (INFO, ("Starting " ++ agent_name ++ " Agent with transport: "
                   ++ transport a)%string)]
       ++ match port a with
          | Some p =>
              if Z.eqb p 0 then [] else [(INFO, ("Using port: " ++ str_int p)%string)]
          | None => []
          end
       ++ [(INFO, "Creating ChatCompletionAgent...");
           (ERROR, ("Error running Commercial Loan Agent: " ++ str_exn e)%string);
           (ERROR, "Full traceback:")])%list.
Proof.
  intros py_int agent_name env e args a w He Hp. unfold main. rewrite Hp.
  destruct (port a) as [p|]; [destruct (Z.eqb p 0) eqn:Hz|];
    unfold run; rewrite He; cbn; rewrite ?Hz; cbn;
    (split; [reflexivity|]); repeat rewrite <- app_assoc; reflexivity.
Qed.

Lemma main_reraises_agent_failure_witness :
  fst (main int_of_decimal "Status Logging"
         (mk_hosting (Some (OtherException "no api key")) None None 0 None
                     None None None)
         [Transport "sse"; Port "8080"] empty_world)
  = Raise (OtherException "no api key") /\
  log (snd (main int_of_decimal "Status Logging"
              (mk_hosting (Some (OtherException "no api key")) None None 0 None
                          None None None)
              [Transport "sse"; Port "8080"] empty_world)) =
    [(INFO, "Commercial Loan Agent starting up...");
     (INFO, "Parsed arguments - transport: sse, port: 8080");
     (INFO, "Starting Status Logging Agent with transport: sse");
     (INFO, "Using port: 8080");
     (INFO, "Creating ChatCompletionAgent...");
     (ERROR, "Error running Commercial Loan Agent: no api key");
     (ERROR, "Full traceback:")].
Proof.
  exact (main_reraises_agent_failure int_of_decimal "Status Logging"
           (mk_hosting (Some (OtherException "no api key")) None None 0 None
                       None None None)
           (OtherException "no api key")
           [Transport "sse"; Port "8080"] (mk_namespace "sse" (Some 8080))
           empty_world eq_refl eq_refl).
Defined.

(** ** The two tables through a history *)

Lemma workflow_step_status_perform w op :
  workflow_step_status (perform w op)
  = (workflow_step_status w ++ logged_row op)%list.
Proof.
  destruct op as [f ? ?|f ? ? ? ? ?|f ? ? ?]; destruct f as [|e|e|e];
    cbn [logged_row]; rewrite ?app_nil_r; try reflexivity; destruct e; reflexivity.
Qed.

(** The step log is append-only: a history leaves every row that was
    there, in place, and adds behind them one row for each [log_step]
    whose write succeeded, in the order of the calls; a step logged
    twice is there twice, and no other operation touches the log. *)
Theorem step_log_is_append_only :
  forall (ops : list operation) (w : world),
    workflow_step_status (perform_all ops w)
    = (workflow_step_status w ++ flat_map logged_row ops)%list.
Proof.
  induction ops as [|op ops IH]; intros w.
  - cbn. rewrite app_nil_r. reflexivity.
  - cbn [perform_all fold_left flat_map]. fold (perform_all ops (perform w op)).
    rewrite IH, workflow_step_status_perform, app_assoc. reflexivity.
Qed.

Lemma record_key_update_row s st wid r :
  record_key (update_row s st wid r) = record_key r.
Proof. unfold update_row. destruct (String.eqb (id r) wid); reflexivity. Qed.

(** No record is ever deleted, moved or re-keyed: through a history
    the ids and creation dates of the table are those it had, in the
    same order, followed by one record (status Initial, step 1) for
    each insert whose write succeeded. *)
Theorem workflow_records_are_never_deleted :
  forall (ops : list operation) (w : world),
    map record_key (workflow (perform_all ops w))
    = (map record_key (workflow w)
       ++ map record_key (flat_map inserted_row ops))%list.
Proof.
  induction ops as [|op ops IH]; intros w.
  - cbn. rewrite app_nil_r. reflexivity.
  - cbn [perform_all fold_left flat_map]. fold (perform_all ops (perform w op)).
    rewrite IH, workflow_perform, map_app, app_assoc. f_equal.
    destruct op as [f ? ?|f ? ? ? ? ?|f ? ? ?]; destruct f;
      cbn [inserted_row map]; rewrite ?app_nil_r; try reflexivity.
    + rewrite map_app. reflexivity.
    + rewrite map_map. apply map_ext. intros r. apply record_key_update_row.
Qed.

Lemma update_row_twice s1 st1 s2 st2 wid r :
  update_row s2 st2 wid (update_row s1 st1 wid r) = update_row s2 st2 wid r.
Proof.
  unfold update_row. destruct (String.eqb (id r) wid) eqn:Hid; cbn; rewrite Hid;
    reflexivity.
Qed.

(** Of two successful updates of one workflow in a row only the second
    shows in the table; in particular repeating an update changes
    nothing more. *)
Theorem second_update_overwrites_first :
  forall s1 st1 s2 st2 wid w,
    workflow (perform (perform w (OpUpdate NoFault s1 wid st1))
                      (OpUpdate NoFault s2 wid st2))
    = workflow (perform w (OpUpdate NoFault s2 wid st2)).
Proof.
  intros. rewrite !workflow_perform, map_map.
  apply map_ext. intros r. apply update_row_twice.
Qed.

(** An update for an id that no record has changes no record, and
    [update_workflow_status] still returns [True]. *)
Theorem update_of_unknown_id_changes_nothing :
  forall f s wid st w,
    (forall r, In r (workflow w) -> id r <> wid) ->
    workflow (snd (update_workflow_status f s wid st w)) = workflow w /\
    fst (update_workflow_status f s wid st w) = Ret true.
Proof.
  intros f s wid st w Hno. split; [|apply update_workflow_status_returns].
  change (workflow (perform w (OpUpdate f s wid st)) = workflow w).
  rewrite workflow_perform. destruct f; try reflexivity.
  rewrite <- (map_id (workflow w)) at 2. apply map_ext_in.
  intros r Hr. unfold update_row.
  destruct (String.eqb_spec (id r) wid) as [Heq|]; [|reflexivity].
  exfalso. exact (Hno r Hr Heq).
Qed.

Lemma update_of_unknown_id_changes_nothing_witness :
  workflow (snd (update_workflow_status NoFault 4 "W9" "Completed"
                   (mk_world [] [mk_workflow_row "W1" "Initial" 1 "2025-01-01 00:00:00"]
                             [] [] [])))
  = [mk_workflow_row "W1" "Initial" 1 "2025-01-01 00:00:00"] /\
  fst (update_workflow_status NoFault 4 "W9" "Completed"
         (mk_world [] [mk_workflow_row "W1" "Initial" 1 "2025-01-01 00:00:00"]
                   [] [] []))
  = Ret true.
Proof.
  apply (update_of_unknown_id_changes_nothing NoFault 4 "W9" "Completed"
           (mk_world [] [mk_workflow_row "W1" "Initial" 1 "2025-01-01 00:00:00"]
                     [] [] [])).
  intros r [<- | []]. vm_compute. discriminate.
Defined.

Lemma update_row_commute s1 st1 wid1 s2 st2 wid2 r :
  wid1 <> wid2 ->
  update_row s2 st2 wid2 (update_row s1 st1 wid1 r)
  = update_row s1 st1 wid1 (update_row s2 st2 wid2 r).
Proof.
  intros Hne. unfold update_row.
  destruct (String.eqb_spec (id r) wid1) as [H1|H1];
    destruct (String.eqb_spec (id r) wid2) as [H2|H2]; cbn.
  - exfalso. apply Hne. rewrite <- H1, <- H2. reflexivity.
  - destruct (String.eqb_spec (id r) wid2); [contradiction|].
    destruct (String.eqb_spec (id r) wid1); [reflexivity|contradiction].
  - destruct (String.eqb_spec (id r) wid1); [contradiction|].
    destruct (String.eqb_spec (id r) wid2); [reflexivity|contradiction].
  - destruct (String.eqb_spec (id r) wid1); [contradiction|].
    destruct (String.eqb_spec (id r) wid2); [contradiction|reflexivity].
Qed.

(** Updates of two different workflows do not interfere: either order
    leaves the same table. *)
Theorem updates_of_distinct_workflows_commute :
  forall s1 st1 wid1 s2 st2 wid2 w,
    wid1 <> wid2 ->
    workflow (perform (perform w (OpUpdate NoFault s1 wid1 st1))
                      (OpUpdate NoFault s2 wid2 st2))
    = workflow (perform (perform w (OpUpdate NoFault s2 wid2 st2))
                        (OpUpdate NoFault s1 wid1 st1)).
Proof.
  intros s1 st1 wid1 s2 st2 wid2 w Hne.
  rewrite !workflow_perform, !map_map. apply map_ext.
  intros r. apply update_row_commute. exact Hne.
Qed.

Lemma updates_of_distinct_workflows_commute_witness :
  workflow (perform (perform
              (mk_world [] [mk_workflow_row "W1" "Initial" 1 "2025-01-01 00:00:00";
                            mk_workflow_row "W2" "Initial" 1 "2025-01-02 00:00:00"]
                        [] [] [])
              (OpUpdate NoFault 3 "W1" "Completed"))
              (OpUpdate NoFault 2 "W2" "Failed"))
  = workflow (perform (perform
                (mk_world [] [mk_workflow_row "W1" "Initial" 1 "2025-01-01 00:00:00";
                              mk_workflow_row "W2" "Initial" 1 "2025-01-02 00:00:00"]
                          [] [] [])
                (OpUpdate NoFault 2 "W2" "Failed"))
                (OpUpdate NoFault 3 "W1" "Completed")).
Proof.
  apply (updates_of_distinct_workflows_commute 3 "Completed" "W1" 2 "Failed" "W2").
  vm_compute. discriminate.
Defined.

(** ** The ingestion loop *)

Ltac ingestion_cases json_loads message env :=
  unfold stored_documents, created_records, stored_value, is_removed,
    is_completed, handled;
  cbn [fst snd andb];
  unfold receive, process_message, loads, complete_message,
    store_in_cosmosdb, create_item, insert_workflow_record, truthy, document_of;
  destruct (json_loads message) as [?|[]];
  destruct (create_item_fault env) as [[]|];
  destruct (sql_fault env) as [|[]|[]|[]];
  destruct (complete_fault env);
  destruct (String.eqb (uuid4 env) "") eqn:Hid;
  rewrite ?app_nil_r;
  cbv -[String.eqb uuid4]; rewrite ?Hid; reflexivity.

(** One turn of the loop: it returns, and what it leaves behind. *)
Lemma receive_effect json_loads d w :
  receive json_loads d w =
  (Ret tt,
   mk_world (container w ++ stored_documents json_loads d)%list
            (workflow w ++ created_records json_loads d)%list
            (workflow_step_status w)
            (completed w ++ (if is_removed json_loads d then [fst d] else []))%list
            (log w)).
Proof.
  destruct d as [message env]. destruct w as [docs rows steps acks entries].
  ingestion_cases json_loads message env.
Qed.

Lemma start_listening_effect json_loads deliveries :
  forall w,
    start_listening json_loads deliveries w =
    (Ret tt,
     mk_world (container w ++ flat_map (stored_documents json_loads) deliveries)%list
              (workflow w ++ flat_map (created_records json_loads) deliveries)%list
              (workflow_step_status w)
              (completed w ++ map fst (filter (is_removed json_loads) deliveries))%list
              (log w)).
Proof.
  induction deliveries as [|d rest IH]; intros w.
  - cbn. rewrite !app_nil_r. destruct w; reflexivity.
  - cbn [start_listening]. unfold bind at 1. rewrite receive_effect, IH.
    cbn [container workflow workflow_step_status completed log flat_map filter].
    rewrite <- !app_assoc. destruct (is_removed json_loads d); reflexivity.
Qed.

(** The loop outlives every message: whatever the parser, the stores
    and the queue do with each delivery, [start_listening] goes on to
    the next one and raises nothing. *)
Theorem start_listening_never_raises :
  forall (json_loads : string -> outcome json)
         (deliveries : list (string * delivery)) (w : world),
    fst (start_listening json_loads deliveries w) = Ret tt.
Proof. intros. rewrite start_listening_effect. reflexivity. Qed.


Lemma created_records_have_documents json_loads d r :
  In r (created_records json_loads d) ->
  status r = "Initial" /\ current_step r = 1 /\
  exists doc, In doc (stored_documents json_loads d)
              /\ json_get "id" doc = Some (JStr (id r)).
Proof.
  unfold created_records, stored_documents, stored_value.
  destruct (json_loads (fst d)); [|intros []].
  cbn [handled].
  destruct (create_item_fault (snd d)); [intros []|].
  destruct (sql_fault (snd d)); try (intros []).
  destruct (String.eqb (uuid4 (snd d)) ""); [intros []|].
  intros [<- | []]. repeat split.
  eexists. split; [left; reflexivity | reflexivity].
Qed.

Lemma created_records_length json_loads d :
  (length (created_records json_loads d)
   <= length (stored_documents json_loads d) <= 1)%nat.
Proof.
  unfold created_records, stored_documents.
  destruct (json_loads (fst d)) as [v|[]]; destruct (create_item_fault (snd d));
    destruct (sql_fault (snd d)); destruct (String.eqb (uuid4 (snd d)) "");
    cbn; lia.
Qed.

Lemma flat_map_lengths {A B C} (f : A -> list B) (g : A -> list C) (l : list A) :
  (forall a, (length (f a) <= length (g a) <= 1)%nat) ->
  (length (flat_map f l) <= length (flat_map g l) <= length l)%nat.
Proof.
  intros H. induction l as [|a l IH]; cbn; [lia|].
  rewrite !length_app. specialize (H a). lia.
Qed.

(** The loop only appends to the container and to the table
    [workflow], and writes to no other table: it stores at most one
    document for a delivery and never more records than documents;
    every record it creates has status Initial and step 1 and is keyed
    by the id of a document it stored. *)
Theorem ingestion_records_have_documents :
  forall (json_loads : string -> outcome json)
         (deliveries : list (string * delivery)) (w : world),
    let w' := snd (start_listening json_loads deliveries w) in
    exists docs rows,
      container w' = (container w ++ docs)%list /\
      workflow w' = (workflow w ++ rows)%list /\
      workflow_step_status w' = workflow_step_status w /\
      (length rows <= length docs <= length deliveries)%nat /\
      forall r, In r rows ->
        status r = "Initial" /\ current_step r = 1 /\
        exists doc, In doc docs /\ json_get "id" doc = Some (JStr (id r)).
Proof.
  intros json_loads deliveries w. cbv zeta. rewrite start_listening_effect.
  exists (flat_map (stored_documents json_loads) deliveries),
         (flat_map (created_records json_loads) deliveries).
  cbn [snd container workflow workflow_step_status].
  split; [reflexivity|]. split; [reflexivity|]. split; [reflexivity|].
  split; [apply flat_map_lengths; intros d; apply created_records_length|].
  intros r Hr. apply in_flat_map in Hr. destruct Hr as [d [Hd Hr]].
  destruct (created_records_have_documents json_loads d r Hr)
    as [Hst [Hcs [doc [Hdoc Hid]]]].
  split; [exact Hst|]. split; [exact Hcs|].
  exists doc. split; [|exact Hid].
  apply in_flat_map. exists d. split; assumption.
Qed.



(** ** Sending *)

(** [send_message] never sends: [__init__] sets no attribute [client],
    so the [with self.client] raises inside the [try]; the handler
    prints the error and the function returns, for every message body
    and whatever the queue would have done. *)
Theorem send_message_never_sends :
  forall (json_dumps : json -> string) (send_fault : option exn)
         (message_body : json) (o : outbox),
    send_message json_dumps send_fault message_body o =
    (Ret tt,
     mk_outbox (sent o)
       (console o
        ++ ["Error sending message: 'ServiceBusHelper' object has no attribute 'client'"])%list).
Proof. intros. reflexivity. Qed.

(** ** The orchestrator *)

Lemma try_except_catches_all {S} (c : M S unit) (h : exn -> M S unit) s :
  (forall e s', fst (h e s') = Ret tt) ->
  fst (try_except c (fun e => Some (h e)) s) = Ret tt.
Proof.
  intros Hh. unfold try_except.
  destruct (c s) as [[[]|e] s']; [reflexivity | apply Hh].
Qed.

Lemma ends_with_last_two {A} (l : list A) (a b : A) :
  ends_with ((l ++ [a]) ++ [b])%list [a; b].
Proof. exists l. rewrite <- app_assoc. reflexivity. Qed.

Ltac orchestrator_cases env s :=
  destruct env as [exe clp cle slp sle pf af wid cf sp odd resp df];
  destruct s as [[docs rows steps acks entries] asked0 printed0];
  unfold caught, answered, odd_query_fault, orchestrator_main, MCPStdioPlugins,
    query_items, get_response, thread_delete, missing_script_entries, with_log;
  cbn [executable commercial_loan_agent_path commercial_loan_agent_exists
       status_logging_agent_path status_logging_agent_exists plugin_fault
       orchestrator_agent_fault WORKFLOW_ID cosmos_fault system_properties
       odd_query_items response delete_fault systems asked printed];
  destruct cle; destruct sle; destruct pf; destruct af; destruct cf;
  destruct (quote_free (str_opt wid));
  destruct odd as [[|odd_item odd_items]|odd_e];
  destruct resp as [[name text [|]]|resp_e];
  destruct df.

(** [main] of the orchestrator catches every failure: a plugin that
    does not start, a failing agent construction, query, agent call or
    cleanup ends in the outer handler, which logs the exception and
    the traceback line, prints the error and returns.  Standard output
    gets the reply line when the agent answered, and the error line
    when something was caught, and nothing else. *)
Theorem orchestrator_main_catches_every_failure :
  forall (py_str : json -> string) (env : orchestration) (s : agency),
    let s' := snd (orchestrator_main py_str env s) in
    fst (orchestrator_main py_str env s) = Ret tt /\
    printed s' =
      (printed s
       ++ match answered env with
          | Some r => [("# " ++ reply_name r ++ ": " ++ reply_text r ++ " ")%string]
          | None => []
          end
       ++ match caught env with
          | Some e => [("Error in orchestrator: " ++ str_exn e)%string]
          | None => []
          end)%list /\
    match caught env with
    | Some e =>
        ends_with (log (systems s'))
          [(ERROR, ("Error in orchestrator: " ++ str_exn e)%string);
           (ERROR, "Full traceback:")]
    | None => True
    end.
Proof.
  intros py_str env s. cbv zeta.
  split.
  { unfold orchestrator_main. apply try_except_catches_all.
    intros e s'. reflexivity. }
  orchestrator_cases env s;
    cbv beta iota zeta delta
      [try_except bind in_world logger_info logger_error logger modify ret raise
       ChatCompletionAgent systems asked printed container workflow
       workflow_step_status completed log fst snd print negb andb first_raised
       raised_by reply_name reply_text reply_thread map];
    destruct (filter (has_partition_key (str_opt wid)) docs) as [|doc found];
    cbv beta iota zeta;
    (split; [rewrite <- ?app_assoc; cbn [app]; rewrite ?app_nil_r; reflexivity|]);
    try exact I; apply ends_with_last_two.
Qed.

(** When one of the two agent scripts is missing, [main] logs the
    path of the first one that is, as an error, and returns: the agent
    is not asked anything, nothing is printed, the stores are neither
    read nor written, and the outer handler does not run. *)
Theorem orchestrator_stops_without_agent_scripts :
  forall (py_str : json -> string) (env : orchestration) (s : agency),
    commercial_loan_agent_exists env && status_logging_agent_exists env = false ->
    orchestrator_main py_str env s
    = (Ret tt,
       mk_agency (with_log (systems s) (missing_script_entries env))
                 (asked s) (printed s)).
Proof.
  intros py_str env s Hmissing.
  destruct env as [exe clp cle slp sle pf af wid cf sp odd resp df].
  destruct s as [[docs rows steps acks entries] asked0 printed0].
  cbn in Hmissing.
  unfold orchestrator_main, missing_script_entries, with_log.
  destruct cle; [destruct sle; [discriminate Hmissing|]|];
    cbn; rewrite <- ?app_assoc; reflexivity.
Qed.

Lemma orchestrator_stops_without_agent_scripts_witness :
  orchestrator_main py_repr
    (mk_orchestration "/usr/bin/python3"
       "/app/commercial_loan_agent.py" true
       "/app/status_logging_agent.py" false
       None None (Some "0b5c") None sample_system_properties (Ret [])
       (Ret (mk_reply "PersonalAssistant" "done" true)) None)
    (mk_agency empty_world [] [])
  = (Ret tt,
     mk_agency
       (mk_world [] [] [] []
          [(INFO, "Starting orchestrator agent...");
           (INFO, "Using Python executable: /usr/bin/python3");
           (INFO, "Commercial Loan agent path: /app/commercial_loan_agent.py");
           (INFO, "Status Logging agent path: /app/status_logging_agent.py");
           (ERROR, "Error: /app/status_logging_agent.py does not exist")])
       [] []).
Proof.
  exact (orchestrator_stops_without_agent_scripts py_repr
           (mk_orchestration "/usr/bin/python3"
              "/app/commercial_loan_agent.py" true
              "/app/status_logging_agent.py" false
              None None (Some "0b5c") None sample_system_properties (Ret [])
              (Ret (mk_reply "PersonalAssistant" "done" true)) None)
           (mk_agency empty_world [] []) eq_refl).
Defined.

(** The text [main] gives to the agent. *)
Lemma orchestrator_asks_once py_str env s :
  commercial_loan_agent_exists env = true ->
  status_logging_agent_exists env = true ->
  plugin_fault env = None ->
  orchestrator_agent_fault env = None ->
  cosmos_fault env = None ->
  quote_free (str_opt (WORKFLOW_ID env)) = true ->
  asked (snd (orchestrator_main py_str env s))
  = (asked s
     ++ [match filter (has_partition_key (str_opt (WORKFLOW_ID env)))
                      (container (systems s)) with
         | doc :: _ => py_str (cosmos_item env doc)
         | [] => ""
         end])%list.
Proof.
  intros Hc Hs Hp Ha Hq Hk.
  unfold orchestrator_main, MCPStdioPlugins, query_items, get_response, thread_delete.
  rewrite Hc, Hs, Hp, Ha, Hq, Hk.
  destruct s as [[docs rows steps acks entries] asked0 printed0].
  cbv beta iota delta [negb try_except bind in_world logger_info logger_error logger
                       modify ret raise ChatCompletionAgent systems asked printed
                       container workflow workflow_step_status completed log fst snd
                       print].
  destruct (filter (has_partition_key (str_opt (WORKFLOW_ID env))) docs);
    cbn [map]; cbv beta iota;
    destruct (response env) as [[name text [|]]|e];
    try destruct (delete_fault env); reflexivity.
Qed.

(** With both scripts, plugins, agent and Cosmos in order, [main] asks
    the agent exactly once, also when the agent call or the cleanup
    then fails: with the text of the first item whose partition key is
    the WORKFLOW_ID, as the query returns it, and with the empty text
    when there is no such item, which is logged as an error but does
    not stop the call. *)
Theorem orchestrator_asks_agent_even_without_document :
  forall (py_str : json -> string) (env : orchestration) (s : agency),
    commercial_loan_agent_exists env = true ->
    status_logging_agent_exists env = true ->
    plugin_fault env = None ->
    orchestrator_agent_fault env = None ->
    cosmos_fault env = None ->
    quote_free (str_opt (WORKFLOW_ID env)) = true ->
    asked (snd (orchestrator_main py_str env s))
    = (asked s
       ++ [match filter (has_partition_key (str_opt (WORKFLOW_ID env)))
                        (container (systems s)) with
           | doc :: _ => py_str (cosmos_item env doc)
           | [] => ""
           end])%list.
Proof. intros. apply orchestrator_asks_once; assumption. Qed.

Lemma orchestrator_asks_agent_even_without_document_witness :
  asked (snd (orchestrator_main py_repr
                (mk_orchestration "/usr/bin/python3"
                   "/app/commercial_loan_agent.py" true
                   "/app/status_logging_agent.py" true
                   None None None None sample_system_properties (Ret [])
                   (Raise (OtherException "rate limit")) None)
                (mk_agency empty_world [] [])))
  = [""].
Proof.
  exact (orchestrator_asks_agent_even_without_document py_repr
           (mk_orchestration "/usr/bin/python3"
              "/app/commercial_loan_agent.py" true
              "/app/status_logging_agent.py" true
              None None None None sample_system_properties (Ret [])
              (Raise (OtherException "rate limit")) None)
           (mk_agency empty_world [] [])
           eq_refl eq_refl eq_refl eq_refl eq_refl eq_refl).
Defined.




